(** * scripts/create-test-user.py: registration of a test user

    The script prints a banner, issues one [requests.post] with a fixed
    JSON payload, and reports on the console what came back.  It is
    embedded here as a program in a small monad that threads the
    chronological trace of its effects (console lines and HTTP requests)
    and propagates Python exceptions, over a model of the Python values
    that [response.json()] can produce. *)

From Stdlib Require Import ZArith String Ascii List Bool DecimalString.
Import ListNotations.

Set Warnings "-register-all".

Local Open Scope string_scope.
Local Open Scope Z_scope.

(** ** Python values *)

Module Py.

(** The values [json.loads] builds.  A [dict] keeps its items in insertion
    order, which is the order [repr] shows them in, so it is an association
    list; its keys are strings.  A [float] is carried by its [repr], the
    only thing the script ever does with one being to print it. *)
Inductive value : Type :=
| PNone
| PBool (b : bool)
| PInt (n : Z)
| PFloat (shown : string)
| PStr (s : string)
| PList (items : list value)
| PDict (items : list (string * value)).

(** [d.get(k)] on the items of a dict: the binding of [k], if any. *)
Fixpoint lookup (k : string) (items : list (string * value)) : option value :=
  match items with
  | [] => None
  | (k', v) :: rest => if String.eqb k k' then Some v else lookup k rest
  end.

Definition squote : ascii := "'"%char.
Definition dquote : ascii := "034"%char.
Definition backslash : ascii := "\"%char.

Fixpoint mem_char (c : ascii) (s : string) : bool :=
  match s with
  | EmptyString => false
  | String c' rest => Ascii.eqb c c' || mem_char c rest
  end.

Definition char1 (c : ascii) : string := String c EmptyString.

Definition hex_digit (n : nat) : ascii :=
  match n with
  | 0 => "0" | 1 => "1" | 2 => "2" | 3 => "3" | 4 => "4" | 5 => "5"
  | 6 => "6" | 7 => "7" | 8 => "8" | 9 => "9" | 10 => "a" | 11 => "b"
  | 12 => "c" | 13 => "d" | 14 => "e" | _ => "f"
  end%nat%char.

(** One character of [repr(str)].  Strings are UTF-8 byte strings here.
    The rules for ASCII are those of [repr].  Bytes from 128 up are
    copied, which is what [repr] does with the printable code points
    outside ASCII only: it escapes the others (U+00A0, U+200B, a lone
    surrogate), which this function does not.  A statement that gives a
    rendered value exactly is made for ASCII text ([ascii_only] below). *)
Definition escape_char (quote c : ascii) : string :=
  let n := nat_of_ascii c in
  if Ascii.eqb c quote || Ascii.eqb c backslash then String backslash (char1 c)
  else if Nat.eqb n 9 then String backslash "t"
  else if Nat.eqb n 10 then String backslash "n"
  else if Nat.eqb n 13 then String backslash "r"
  else if Nat.ltb n 32 || Nat.eqb n 127 then
    String backslash (String "x" (String (hex_digit (n / 16)) (char1 (hex_digit (n mod 16)))))
  else char1 c.

Fixpoint escape (quote : ascii) (s : string) : string :=
  match s with
  | EmptyString => EmptyString
  | String c rest => escape_char quote c ++ escape quote rest
  end.

(** [repr] of a [str]: single quotes, unless the text has a single quote
    and no double quote. *)
Definition repr_str (s : string) : string :=
  let quote := if mem_char squote s && negb (mem_char dquote s) then dquote else squote in
  String quote (escape quote s ++ char1 quote).

(** [str] of an [int]. *)
Definition str_int (n : Z) : string := NilZero.string_of_int (Z.to_int n).

Fixpoint join (sep : string) (parts : list string) : string :=
  match parts with
  | [] => EmptyString
  | [p] => p
  | p :: rest => p ++ sep ++ join sep rest
  end.

Fixpoint repr (v : value) : string :=
  match v with
  | PNone => "None"
  | PBool true => "True"
  | PBool false => "False"
  | PInt n => str_int n
  | PFloat shown => shown
  | PStr s => repr_str s
  | PList items => "[" ++ join ", " (map repr items) ++ "]"
  | PDict items =>
      "{" ++ join ", " (map (fun kv => repr_str (fst kv) ++ ": " ++ repr (snd kv)) items) ++ "}"
  end.

(** [str(v)], which [print] and f-strings apply: a [str] is shown as it
    is, everything else by its [repr]. *)
Definition str (v : value) : string :=
  match v with
  | PStr s => s
  | _ => repr v
  end.

(** The name [type(v).__name__] that error messages quote. *)
Definition type_name (v : value) : string :=
  match v with
  | PNone => "NoneType"
  | PBool _ => "bool"
  | PInt _ => "int"
  | PFloat _ => "float"
  | PStr _ => "str"
  | PList _ => "list"
  | PDict _ => "dict"
  end.

(** Exception classes the script can meet.  The first five are those of
    [requests.exceptions] for transport faults; [KeyboardInterrupt] is the
    one class here that does not derive from [Exception]. *)
Inductive exc_class : Type :=
| ConnectionError
| Timeout
| ChunkedEncodingError
| ContentDecodingError
| RequestException
| JSONDecodeError
| KeyError
| TypeError
| KeyboardInterrupt.

(** An exception object: its class and [str(e)]. *)
Record exn : Type := Exn { exc_type : exc_class; exc_str : string }.

(** [isinstance(e, Exception)]. *)
Definition is_Exception (e : exn) : bool :=
  match exc_type e with
  | KeyboardInterrupt => false
  | _ => true
  end.

(** Faults of the transport: connection refused, timeout, a response that
    cannot be read. *)
Definition transport_fault (e : exn) : bool :=
  match exc_type e with
  | ConnectionError | Timeout | ChunkedEncodingError | ContentDecodingError
  | RequestException => true
  | _ => false
  end.

(** [v[key]] for a [str] key (messages as CPython 3.11 and later word
    them): a dict gives the binding or raises [KeyError(key)], whose [str]
    is the [repr] of the key; nothing else can be indexed by a [str]. *)
Definition getitem_str (v : value) (key : string) : value + exn :=
  match v with
  | PDict items =>
      match lookup key items with
      | Some x => inl x
      | None => inr (Exn KeyError (repr_str key))
      end
  | PList _ => inr (Exn TypeError "list indices must be integers or slices, not str")
  | PStr _ => inr (Exn TypeError "string indices must be integers, not 'str'")
  | _ => inr (Exn TypeError ("'" ++ type_name v ++ "' object is not subscriptable"))
  end.

End Py.

Import Py.

(** ** The world outside the script *)

(** What the script reads of the object [requests.post] returns: the
    attribute [status_code] and the method [json()].  [text] is the body
    the server sent; [json_result] is what [json()] does on it, the decoded
    value or a [JSONDecodeError] with the given message. *)
Record response : Type := Response {
  status_code : Z;
  text : string;
  json_result : value + string
}.

(** An outcome of [requests.post]. *)
Inductive post_outcome : Type :=
| Returns (r : response)
| Raises (e : exn).

(** The network, seen from the script: the outcome of a POST of a JSON
    payload to a URL. *)
Definition network : Type := string -> value -> post_outcome.

(** The effects of the script, in the order they happen. *)
Inductive event : Type :=
| EvPrint (line : string)
| EvPost (url : string) (json : value).

Definition trace : Type := list event.

(** ** Programs: a network to read, a trace to extend, exceptions *)

Definition M (A : Type) : Type := network -> trace -> (A + exn) * trace.

Definition ret {A} (a : A) : M A := fun _ t => (inl a, t).

Definition bind {A B} (m : M A) (k : A -> M B) : M B :=
  fun net t =>
    match m net t with
    | (inl a, t') => k a net t'
    | (inr e, t') => (inr e, t')
    end.

Definition raise {A} (e : exn) : M A := fun _ t => (inr e, t).

Definition lift {A} (r : A + exn) : M A := fun _ t => (r, t).

Declare Scope py_scope.
Delimit Scope py_scope with py.
Notation "x <- m ;; k" := (bind m (fun x => k))
  (at level 61, m at next level, right associativity) : py_scope.
Notation "m ;; k" := (bind m (fun _ => k))
  (at level 61, right associativity) : py_scope.

(** [print(s)] on a UTF-8 console: [s] and a newline are written.  The
    real [print] raises [UnicodeEncodeError] instead when [s] holds a lone
    surrogate, which a decoded JSON string can; that is not modelled, and
    a statement that gives the console for a printed value carries the
    hypothesis that excludes it ([print_accepts], [shown_exactly]
    below). *)
Definition print (s : string) : M unit :=
  fun _ t => (inl tt, (t ++ [EvPrint s])%list).

(** [requests.post(url, json=payload)]. *)
Definition requests_post (url : string) (payload : value) : M response :=
  fun net t =>
    match net url payload with
    | Returns r => (inl r, (t ++ [EvPost url payload])%list)
    | Raises e => (inr e, (t ++ [EvPost url payload])%list)
    end.

(** [response.json()]. *)
Definition response_json (r : response) : M value :=
  match json_result r with
  | inl v => ret v
  | inr msg => raise (Exn JSONDecodeError msg)
  end.

(** [v[key]]. *)
Definition getitem (v : value) (key : string) : M value := lift (getitem_str v key).

(** [try: body  except Exception as e: handler(e)]: an exception of
    another class goes through. *)
Definition try_except_Exception {A} (body : M A) (handler : exn -> M A) : M A :=
  fun net t =>
    match body net t with
    | (inl a, t') => (inl a, t')
    | (inr e, t') => if is_Exception e then handler e net t' else (inr e, t')
    end.

(** ** The script *)

Definition newline : string := String "010"%char EmptyString.

Definition BASE_URL : string := "http://localhost:1341".

Definition register_data : value :=
  PDict [ ("username", PStr "testsysadmin");
          ("email", PStr "testsysadmin@test.com");
          ("password", PStr "TestAdmin123!") ].

Definition register_url : string := BASE_URL ++ "/api/auth/local/register".

Local Open Scope py_scope.

Definition main : M unit :=
  print "Step 1: Registering test user..." ;;
  try_except_Exception
    (response <- requests_post register_url register_data ;;
     if status_code response =? 200 then
       data <- response_json response ;;
       user <- getitem data "user" ;;
       user_id <- getitem user "id" ;;
       token <- getitem data "jwt" ;;
       print ("✅ User created with ID: " ++ str user_id) ;;
       print ("📝 JWT Token: " ++ str token) ;;
       print (newline ++ "⚠️  Note: User role is 'reguser' by default") ;;
       print "To make this user a sysadmin, update the database:" ;;
       print ("UPDATE up_users SET userRole='sysadmin' WHERE id=" ++ str user_id ++ ";")
     else
       print ("❌ Registration failed: " ++ str (PInt (status_code response))) ;;
       body <- response_json response ;;
       print (str body))
    (fun e => print ("❌ Error: " ++ exc_str e)).

Local Close Scope py_scope.

(** A run of the script: the module body, from an empty trace. *)
Definition run (net : network) : (unit + exn) * trace := main net [].

(** The arguments of the [print] calls, in order; each is written
    followed by a newline, and may itself hold newlines. *)
Fixpoint printed (t : trace) : list string :=
  match t with
  | [] => []
  | EvPrint s :: rest => s :: printed rest
  | EvPost _ _ :: rest => printed rest
  end.

(** The requests sent, in order. *)
Fixpoint posted (t : trace) : list (string * value) :=
  match t with
  | [] => []
  | EvPrint _ :: rest => posted rest
  | EvPost url json :: rest => (url, json) :: posted rest
  end.

Definition stdout (net : network) : list string := printed (snd (run net)).

Definition requests_sent (net : network) : list (string * value) := posted (snd (run net)).

(** The status the interpreter exits with (POSIX): 0 when the module body
    runs to its end; when an exception escapes it, 130 for
    [KeyboardInterrupt] and 1 for any other. *)
Definition exit_code (net : network) : Z :=
  match fst (run net) with
  | inl _ => 0
  | inr e => match exc_type e with KeyboardInterrupt => 130 | _ => 1 end
  end.

(** ** Shapes and predicates of the statements *)

(** The body of a successful registration, as the service documents it:
    an object with a [user] object that has an [id], and a [jwt]. *)
Inductive success_shape : value -> value -> value -> Prop :=
| success_shape_intro (d u : list (string * value)) (i t : value) :
    lookup "user" d = Some (PDict u) ->
    lookup "id" u = Some i ->
    lookup "jwt" d = Some t ->
    success_shape (PDict d) i t.

(** The three subscripts of the success branch, in the order the script
    evaluates them. *)
Definition extract (data : value) : (value * value) + exn :=
  match getitem_str data "user" with
  | inr e => inr e
  | inl user =>
      match getitem_str user "id" with
      | inr e => inr e
      | inl user_id =>
          match getitem_str data "jwt" with
          | inr e => inr e
          | inl token => inl (user_id, token)
          end
      end
  end.






(** [needle in line]. *)
Fixpoint isinfix (needle line : string) : bool :=
  String.prefix needle line ||
  match line with
  | EmptyString => false
  | String _ rest => isinfix needle rest
  end.

(** A network that gives the same outcome to every request. *)
Definition answering (o : post_outcome) : network := fun _ _ => o.


(** The body of a response is unusable when it does not decode, or decodes
    to a value that is not of the documented shape: no [user] entry, no
    [id] inside it, or no [jwt] entry. *)
Definition unusable_body (r : response) : Prop :=
  (exists msg, json_result r = inr msg) \/
  (exists data, json_result r = inl data /\ forall i t, ~ success_shape data i t).

(** [s] between double quotes, to write JSON text. *)
Definition q (s : string) : string := String dquote (s ++ char1 dquote).

(** ** Sample responses *)

Definition created_body : value :=
  PDict [ ("jwt", PStr "eyJhbGciOi.eyJpZCI6N30.c2ln");
          ("user", PDict [ ("id", PInt 7); ("username", PStr "testsysadmin") ]) ].

Definition created : response :=
  Response 200
    ("{" ++ q "jwt" ++ ":" ++ q "eyJhbGciOi.eyJpZCI6N30.c2ln" ++ "," ++ q "user" ++ ":{"
         ++ q "id" ++ ":7," ++ q "username" ++ ":" ++ q "testsysadmin" ++ "}}")
    (inl created_body).

Definition bad_request_plain : response :=
  Response 400 "Bad Request" (inr "Expecting value: line 1 column 1 (char 0)").

Definition ok_without_token : response :=
  Response 200
    ("{" ++ q "user" ++ ":{" ++ q "id" ++ ":7}}")
    (inl (PDict [ ("user", PDict [ ("id", PInt 7) ]) ])).


Definition refused : exn :=
  Exn ConnectionError "HTTPConnectionPool(host='localhost', port=1341): Max retries exceeded".

(** A network that answers the registration request and refuses all
    others. *)
Definition only_registration (o : post_outcome) : network :=
  fun url _ => if String.eqb url register_url then o else Raises refused.

(** ** Proof steps *)

(** Unfold the script up to the request and use its outcome [H]. *)
Ltac step_script H :=
  unfold run, main, try_except_Exception, bind, print, requests_post,
    response_json, getitem, lift, ret, raise;
  cbv beta; rewrite H; cbv beta iota.



(** ** How a run unfolds, by the outcome of the request *)

(** A subscript that fails raises [KeyError] or [TypeError], both of which
    [except Exception] catches. *)
Lemma getitem_str_Exception (v : value) (key : string) (e : exn) :
  getitem_str v key = inr e -> is_Exception e = true.
Proof.
  destruct v; simpl; intros H; try (inversion H; reflexivity).
  destruct (lookup key items); inversion H; reflexivity.
Qed.

Lemma run_raises (net : network) (e : exn) :
  net register_url register_data = Raises e ->
  run net =
    if is_Exception e
    then (inl tt, [ EvPrint "Step 1: Registering test user...";
                    EvPost register_url register_data;
                    EvPrint ("❌ Error: " ++ exc_str e) ])
    else (inr e, [ EvPrint "Step 1: Registering test user...";
                   EvPost register_url register_data ]).
Proof.
  intros H. step_script H.
  destruct (is_Exception e); reflexivity.
Qed.

Lemma run_failure_status (net : network) (r : response) :
  net register_url register_data = Returns r ->
  status_code r <> 200 ->
  run net =
    (inl tt, [ EvPrint "Step 1: Registering test user...";
               EvPost register_url register_data;
               EvPrint ("❌ Registration failed: " ++ str_int (status_code r));
               EvPrint (match json_result r with
                        | inl body => str body
                        | inr msg => "❌ Error: " ++ msg
                        end) ]).
Proof.
  intros H Hs. step_script H.
  apply Z.eqb_neq in Hs. rewrite Hs.
  destruct (json_result r); reflexivity.
Qed.

Lemma run_ok_undecodable (net : network) (r : response) (msg : string) :
  net register_url register_data = Returns r ->
  status_code r = 200 ->
  json_result r = inr msg ->
  run net =
    (inl tt, [ EvPrint "Step 1: Registering test user...";
               EvPost register_url register_data;
               EvPrint ("❌ Error: " ++ msg) ]).
Proof.
  intros H Hs Hj. step_script H.
  rewrite Hs, Hj. reflexivity.
Qed.

Lemma run_ok_decoded (net : network) (r : response) (data : value) :
  net register_url register_data = Returns r ->
  status_code r = 200 ->
  json_result r = inl data ->
  run net =
    (inl tt,
     match extract data with
     | inl (user_id, token) =>
         [ EvPrint "Step 1: Registering test user...";
           EvPost register_url register_data;
           EvPrint ("✅ User created with ID: " ++ str user_id);
           EvPrint ("📝 JWT Token: " ++ str token);
           EvPrint (newline ++ "⚠️  Note: User role is 'reguser' by default");
           EvPrint "To make this user a sysadmin, update the database:";
           EvPrint ("UPDATE up_users SET userRole='sysadmin' WHERE id=" ++ str user_id ++ ";") ]
     | inr e =>
         [ EvPrint "Step 1: Registering test user...";
           EvPost register_url register_data;
           EvPrint ("❌ Error: " ++ exc_str e) ]
     end).
Proof.
  intros H Hs Hj. step_script H.
  rewrite Hs, Hj. unfold extract. cbv beta iota.
  change (200 =? 200) with true. cbv iota.
  destruct (getitem_str data "user") as [user | e1] eqn:Hu;
    [| rewrite (getitem_str_Exception _ _ _ Hu); reflexivity ].
  destruct (getitem_str user "id") as [user_id | e2] eqn:Hi;
    [| rewrite (getitem_str_Exception _ _ _ Hi); reflexivity ].
  destruct (getitem_str data "jwt") as [token | e3] eqn:Ht;
    [| rewrite (getitem_str_Exception _ _ _ Ht); reflexivity ].
  reflexivity.
Qed.

(** The subscripts all succeed exactly on a body of the documented shape. *)
Lemma extract_success_shape (data i t : value) :
  extract data = inl (i, t) <-> success_shape data i t.
Proof.
  split.
  - unfold extract. intros H.
    destruct data; simpl in H; try discriminate.
    destruct (lookup "user" items) as [user |] eqn:Hu; try discriminate.
    destruct user; simpl in H; try discriminate.
    destruct (lookup "id" items0) as [user_id |] eqn:Hi; try discriminate.
    destruct (lookup "jwt" items) as [token |] eqn:Ht; try discriminate.
    inversion H; subst. econstructor; eassumption.
  - intros H. destruct H as [d u i t Hu Hi Ht].
    unfold extract. simpl. rewrite Hu. simpl. rewrite Hi, Ht. reflexivity.
Qed.

Lemma extract_total (data : value) :
  (exists i t, success_shape data i t) \/
  (exists e, extract data = inr e /\ is_Exception e = true).
Proof.
  destruct (extract data) as [[i t] | e] eqn:He.
  - left. exists i, t. apply extract_success_shape. exact He.
  - right. exists e. split; [reflexivity |].
    unfold extract in He.
    destruct (getitem_str data "user") as [user | e1] eqn:Hu.
    2: { inversion He; subst. eapply getitem_str_Exception; eassumption. }
    destruct (getitem_str user "id") as [user_id | e2] eqn:Hi.
    2: { inversion He; subst. eapply getitem_str_Exception; eassumption. }
    destruct (getitem_str data "jwt") as [token | e3] eqn:Ht.
    2: { inversion He; subst. eapply getitem_str_Exception; eassumption. }
    discriminate.
Qed.

Lemma posted_prints (lines : list string) : posted (map EvPrint lines) = [].
Proof. induction lines as [| l lines IH]; simpl; [reflexivity | exact IH]. Qed.

Lemma printed_prints (lines : list string) : printed (map EvPrint lines) = lines.
Proof. induction lines as [| l lines IH]; simpl; [reflexivity | now rewrite IH]. Qed.

(** Whatever the network does, a run is the banner, then the one request,
    then console lines only. *)
Lemma run_layout (net : network) :
  exists lines,
    snd (run net) =
      EvPrint "Step 1: Registering test user..."
        :: EvPost register_url register_data :: map EvPrint lines.
Proof.
  destruct (net register_url register_data) as [r | e] eqn:H.
  - destruct (Z.eq_dec (status_code r) 200) as [Hs | Hs].
    + destruct (json_result r) as [data | msg] eqn:Hj.
      * rewrite (run_ok_decoded net r data H Hs Hj).
        destruct (extract data) as [[i t] | e'].
        -- eexists [_; _; _; _; _]. reflexivity.
        -- eexists [_]. reflexivity.
      * rewrite (run_ok_undecodable net r msg H Hs Hj).
        exists ["❌ Error: " ++ msg]. reflexivity.
    + rewrite (run_failure_status net r H Hs).
      eexists [_; _]. reflexivity.
  - rewrite (run_raises net e H). destruct (is_Exception e).
    + exists ["❌ Error: " ++ exc_str e]. reflexivity.
    + exists []. reflexivity.
Qed.

Lemma requests_sent_once (net : network) :
  requests_sent net = [ (register_url, register_data) ].
Proof.
  unfold requests_sent. destruct (run_layout net) as [lines H].
  rewrite H. simpl. now rewrite posted_prints.
Qed.

Lemma stdout_of_run (net : network) (res : unit + exn) (t : trace) :
  run net = (res, t) -> stdout net = printed t.
Proof. intros H. unfold stdout. now rewrite H. Qed.

(** ** The request *)

(** C1: the script posts to BASE_URL followed by /api/auth/local/register,
    BASE_URL being http://localhost:1341, and the JSON it sends is the
    object with username testsysadmin, email testsysadmin@test.com and
    password TestAdmin123!, whatever the network answers. *)
Theorem register_request_fixed (net : network) :
  BASE_URL = "http://localhost:1341" /\
  register_url = BASE_URL ++ "/api/auth/local/register" /\
  requests_sent net =
    [ ("http://localhost:1341/api/auth/local/register",
       PDict [ ("username", PStr "testsysadmin");
               ("email", PStr "testsysadmin@test.com");
               ("password", PStr "TestAdmin123!") ]) ].
Proof.
  split; [reflexivity |]. split; [reflexivity |].
  apply requests_sent_once.
Qed.

(** ** The success branch *)






(** ** The failure branch *)

(** The prints of the failure branch, [print] being total here. *)
Lemma stdout_failure (net : network) (r : response) :
  net register_url register_data = Returns r ->
  status_code r <> 200 ->
  stdout net =
    [ "Step 1: Registering test user...";
      "❌ Registration failed: " ++ str_int (status_code r);
      match json_result r with
      | inl body => str body
      | inr msg => "❌ Error: " ++ msg
      end ].
Proof.
  intros H Hs.
  rewrite (stdout_of_run _ _ _ (run_failure_status net r H Hs)). reflexivity.
Qed.




(** A 201 that carries the body of a successful registration goes
    through the failure branch, which shows the decoded body whole. *)
Example created_with_status_201 :
  stdout (answering (Returns (Response 201 (text created) (json_result created)))) =
    [ "Step 1: Registering test user...";
      "❌ Registration failed: 201";
      "{'jwt': 'eyJhbGciOi.eyJpZCI6N30.c2ln', 'user': {'id': 7, 'username': 'testsysadmin'}}" ].
Proof. reflexivity. Qed.

(** C10: a response with a status other than 200 whose body does not
    decode prints the failure line with the status code and then the
    error line made of the decoder's message; the console is the same
    whatever the text of the body was. *)
Theorem failure_with_undecodable_body
    (net : network) (r : response) (msg : string) :
  net register_url register_data = Returns r ->
  status_code r <> 200 ->
  json_result r = inr msg ->
  stdout net =
    [ "Step 1: Registering test user...";
      "❌ Registration failed: " ++ str_int (status_code r);
      "❌ Error: " ++ msg ] /\
  (forall body' : string,
      stdout (answering (Returns (Response (status_code r) body' (inr msg)))) = stdout net).
Proof.
  intros H Hs Hj.
  assert (Hout : stdout net =
                   [ "Step 1: Registering test user...";
                     "❌ Registration failed: " ++ str_int (status_code r);
                     "❌ Error: " ++ msg ]).
  { rewrite (stdout_failure net r H Hs), Hj. reflexivity. }
  split; [exact Hout |].
  intros body'. rewrite Hout.
  rewrite (stdout_failure (answering (Returns (Response (status_code r) body' (inr msg))))
             (Response (status_code r) body' (inr msg)) eq_refl Hs).
  reflexivity.
Qed.

Lemma failure_with_undecodable_body_witness :
  stdout (answering (Returns bad_request_plain)) =
    [ "Step 1: Registering test user...";
      "❌ Registration failed: 400";
      "❌ Error: Expecting value: line 1 column 1 (char 0)" ] /\
  (forall body' : string,
      stdout (answering (Returns (Response 400 body'
                                    (inr "Expecting value: line 1 column 1 (char 0)")))) =
      stdout (answering (Returns bad_request_plain))).
Proof.
  apply (failure_with_undecodable_body (answering (Returns bad_request_plain))
           bad_request_plain "Expecting value: line 1 column 1 (char 0)").
  - reflexivity.
  - discriminate.
  - reflexivity.
Defined.

(** ** Exceptions and the exit status *)

Lemma exit_code_of_run (net : network) (t : trace) :
  run net = (inl tt, t) -> exit_code net = 0.
Proof. intros H. unfold exit_code. now rewrite H. Qed.

Lemma transport_fault_is_Exception (e : exn) :
  transport_fault e = true -> is_Exception e = true.
Proof.
  unfold transport_fault, is_Exception. destruct (exc_type e); intros H;
    first [reflexivity | discriminate H].
Qed.

Lemma run_caught (net : network) (e : exn) :
  net register_url register_data = Raises e ->
  is_Exception e = true ->
  run net =
    (inl tt, [ EvPrint "Step 1: Registering test user...";
               EvPost register_url register_data;
               EvPrint ("❌ Error: " ++ exc_str e) ]).
Proof.
  intros H He. rewrite (run_raises net e H), He. reflexivity.
Qed.

(** C5: when the request raises a transport fault, the script catches it:
    the console shows the banner and one error line that ends with the
    text of the fault, and the module body ends without an exception. *)
Theorem transport_fault_caught_and_printed (net : network) (e : exn) :
  net register_url register_data = Raises e ->
  transport_fault e = true ->
  stdout net = [ "Step 1: Registering test user..."; "❌ Error: " ++ exc_str e ] /\
  fst (run net) = inl tt.
Proof.
  intros H Hf.
  pose proof (run_caught net e H (transport_fault_is_Exception e Hf)) as Hrun.
  split.
  - rewrite (stdout_of_run _ _ _ Hrun). reflexivity.
  - rewrite Hrun. reflexivity.
Qed.

Lemma transport_fault_caught_and_printed_witness :
  stdout (answering (Raises refused)) =
    [ "Step 1: Registering test user...";
      "❌ Error: HTTPConnectionPool(host='localhost', port=1341): Max retries exceeded" ] /\
  fst (run (answering (Raises refused))) = inl tt.
Proof.
  apply (transport_fault_caught_and_printed (answering (Raises refused)) refused);
    reflexivity.
Defined.

(** The module body runs to its end unless the request raises something
    that is not an [Exception]. *)
Lemma run_completes (net : network) :
  (forall e, net register_url register_data = Raises e -> is_Exception e = true) ->
  exists t, run net = (inl tt, t).
Proof.
  intros Hcaught.
  destruct (net register_url register_data) as [r | e] eqn:H.
  - destruct (Z.eq_dec (status_code r) 200) as [Hs | Hs].
    + destruct (json_result r) as [data | msg] eqn:Hj.
      * eexists. apply (run_ok_decoded net r data H Hs Hj).
      * eexists. apply (run_ok_undecodable net r msg H Hs Hj).
    + eexists. apply (run_failure_status net r H Hs).
  - eexists. apply (run_caught net e H (Hcaught e eq_refl)).
Qed.

(** C6: whether the request returns a response, of status 200 or not, or
    raises an exception that the handler catches, the script ends with
    exit status 0. *)
Theorem exit_code_always_zero (net : network) :
  (exists r, net register_url register_data = Returns r) \/
  (exists e, net register_url register_data = Raises e /\ is_Exception e = true) ->
  exit_code net = 0.
Proof.
  intros Hout.
  destruct (run_completes net) as [t Hrun].
  - intros e He. destruct Hout as [[r Hr] | [e' [He' Hexc]]].
    + rewrite Hr in He. discriminate He.
    + rewrite He' in He. inversion He; subst. exact Hexc.
  - apply (exit_code_of_run net t Hrun).
Qed.

Lemma exit_code_always_zero_witness :
  exit_code (answering (Returns bad_request_plain)) = 0 /\
  exit_code (answering (Raises refused)) = 0.
Proof.
  split.
  - apply (exit_code_always_zero (answering (Returns bad_request_plain))).
    left. exists bad_request_plain. reflexivity.
  - apply (exit_code_always_zero (answering (Raises refused))).
    right. exists refused. split; reflexivity.
Defined.

(** ** Effects *)

(** C7: every run sends exactly one request, the POST of the fixed
    payload to the fixed URL, after the banner; every other effect of the
    run is a line on the console. *)
Theorem one_post_and_console_only (net : network) :
  requests_sent net = [ (register_url, register_data) ] /\
  exists lines,
    snd (run net) =
      EvPrint "Step 1: Registering test user..."
        :: EvPost register_url register_data :: map EvPrint lines.
Proof.
  split.
  - apply requests_sent_once.
  - apply run_layout.
Qed.

(** C8: the request does not depend on the network, and two runs in which
    the request has the same outcome, the same response or the same
    exception, print the same lines and end alike. *)
Theorem run_determined_by_outcome (net1 net2 : network) :
  requests_sent net1 = [ (register_url, register_data) ] /\
  requests_sent net2 = [ (register_url, register_data) ] /\
  (net1 register_url register_data = net2 register_url register_data ->
   run net1 = run net2).
Proof.
  split; [apply requests_sent_once |]. split; [apply requests_sent_once |].
  - intros Hsame.
    destruct (net2 register_url register_data) as [r | e] eqn:H2.
    + destruct (Z.eq_dec (status_code r) 200) as [Hs | Hs].
      * destruct (json_result r) as [data | msg] eqn:Hj.
        -- now rewrite (run_ok_decoded net1 r data Hsame Hs Hj),
             (run_ok_decoded net2 r data H2 Hs Hj).
        -- now rewrite (run_ok_undecodable net1 r msg Hsame Hs Hj),
             (run_ok_undecodable net2 r msg H2 Hs Hj).
      * now rewrite (run_failure_status net1 r Hsame Hs),
          (run_failure_status net2 r H2 Hs).
    + now rewrite (run_raises net1 e Hsame), (run_raises net2 e H2).
Qed.

Lemma run_determined_by_outcome_witness :
  run (answering (Returns created)) = run (only_registration (Returns created)).
Proof.
  apply (proj2 (proj2 (run_determined_by_outcome (answering (Returns created))
                         (only_registration (Returns created))))).
  reflexivity.
Defined.

(** ** A 200 response that cannot be used *)

(** C9: a 200 response whose body does not decode, or lacks [user], the
    [id] in it, or [jwt], makes the script print the banner and a single
    error line; no line reports an identifier or a token or gives the
    update statement, and the module body ends without an exception. *)
Theorem unusable_success_body_one_error (net : network) (r : response) :
  net register_url register_data = Returns r ->
  status_code r = 200 ->
  unusable_body r ->
  (exists msg, stdout net = [ "Step 1: Registering test user..."; "❌ Error: " ++ msg ]) /\
  (forall line, In line (stdout net) ->
     String.prefix "✅ User created with ID: " line = false /\
     String.prefix "📝 JWT Token: " line = false /\
     String.prefix "UPDATE up_users SET userRole='sysadmin' WHERE id=" line = false) /\
  fst (run net) = inl tt.
Proof.
  intros H Hs Hbad.
  assert (Hrun : exists msg,
             run net = (inl tt, [ EvPrint "Step 1: Registering test user...";
                                  EvPost register_url register_data;
                                  EvPrint ("❌ Error: " ++ msg) ])).
  { destruct Hbad as [[msg Hj] | [data [Hj Hshape]]].
    - exists msg. apply (run_ok_undecodable net r msg H Hs Hj).
    - destruct (extract_total data) as [[i [t Hok]] | [e [He _]]].
      + destruct (Hshape i t Hok).
      + exists (exc_str e).
        rewrite (run_ok_decoded net r data H Hs Hj), He. reflexivity. }
  destruct Hrun as [msg Hrun].
  assert (Hout : stdout net = [ "Step 1: Registering test user..."; "❌ Error: " ++ msg ])
    by (rewrite (stdout_of_run _ _ _ Hrun); reflexivity).
  split; [exists msg; exact Hout |]. split.
  - intros line Hin. rewrite Hout in Hin.
    destruct Hin as [<- | [<- | []]]; repeat split; reflexivity.
  - rewrite Hrun. reflexivity.
Qed.

Lemma unusable_success_body_one_error_witness :
  (exists msg, stdout (answering (Returns ok_without_token)) =
                 [ "Step 1: Registering test user..."; "❌ Error: " ++ msg ]) /\
  (forall line, In line (stdout (answering (Returns ok_without_token))) ->
     String.prefix "✅ User created with ID: " line = false /\
     String.prefix "📝 JWT Token: " line = false /\
     String.prefix "UPDATE up_users SET userRole='sysadmin' WHERE id=" line = false) /\
  fst (run (answering (Returns ok_without_token))) = inl tt.
Proof.
  apply (unusable_success_body_one_error (answering (Returns ok_without_token))
           ok_without_token).
  - reflexivity.
  - reflexivity.
  - right. exists (PDict [ ("user", PDict [ ("id", PInt 7) ]) ]).
    split; [reflexivity |].
    intros i t Hshape. inversion Hshape; subst.
    match goal with Hjwt : lookup "jwt" _ = Some _ |- _ => discriminate Hjwt end.
Defined.

(** ** An exception that is not an [Exception] *)

(** X1: when the request raises something that does not derive from
    [Exception] (an interrupt), the handler does not run: only the banner
    is on the console, the exception leaves the module body, and the exit
    status is not 0. *)
Theorem interrupt_escapes_handler (net : network) (e : exn) :
  net register_url register_data = Raises e ->
  is_Exception e = false ->
  stdout net = [ "Step 1: Registering test user..." ] /\
  fst (run net) = inr e /\
  exit_code net <> 0.
Proof.
  intros H He.
  assert (Hrun : run net = (inr e, [ EvPrint "Step 1: Registering test user...";
                                     EvPost register_url register_data ]))
    by (rewrite (run_raises net e H), He; reflexivity).
  split; [| split].
  - rewrite (stdout_of_run _ _ _ Hrun). reflexivity.
  - rewrite Hrun. reflexivity.
  - unfold exit_code. rewrite Hrun. simpl.
    destruct (exc_type e); discriminate.
Qed.

Lemma interrupt_escapes_handler_witness :
  stdout (answering (Raises (Exn KeyboardInterrupt ""))) =
    [ "Step 1: Registering test user..." ] /\
  fst (run (answering (Raises (Exn KeyboardInterrupt "")))) = inr (Exn KeyboardInterrupt "") /\
  exit_code (answering (Raises (Exn KeyboardInterrupt ""))) <> 0.
Proof.
  apply (interrupt_escapes_handler (answering (Raises (Exn KeyboardInterrupt "")))
           (Exn KeyboardInterrupt ""));
    reflexivity.
Defined.

(** ** Which runs report a user *)



(** ** The error line of a 200 body with a missing key *)

Lemma stdout_ok_extract_error (net : network) (r : response) (data : value) (e : exn) :
  net register_url register_data = Returns r ->
  status_code r = 200 ->
  json_result r = inl data ->
  extract data = inr e ->
  stdout net = [ "Step 1: Registering test user..."; "❌ Error: " ++ exc_str e ].
Proof.
  intros H Hs Hj He.
  rewrite (stdout_of_run _ _ _ (run_ok_decoded net r data H Hs Hj)), He.
  reflexivity.
Qed.

(** X3: on a 200 response whose body is an object, the error line names
    the first key the script misses, between quotes and with nothing
    else: 'user' when there is no user entry whatever else is there, 'id'
    when the user object has no id even if jwt is missing too, and 'jwt'
    only when user.id was found. *)
Theorem error_line_names_first_missing_key
    (net : network) (r : response) (d : list (string * value)) :
  net register_url register_data = Returns r ->
  status_code r = 200 ->
  json_result r = inl (PDict d) ->
  (lookup "user" d = None ->
   stdout net = [ "Step 1: Registering test user..."; "❌ Error: 'user'" ]) /\
  (forall u, lookup "user" d = Some (PDict u) -> lookup "id" u = None ->
   stdout net = [ "Step 1: Registering test user..."; "❌ Error: 'id'" ]) /\
  (forall u i, lookup "user" d = Some (PDict u) -> lookup "id" u = Some i ->
   lookup "jwt" d = None ->
   stdout net = [ "Step 1: Registering test user..."; "❌ Error: 'jwt'" ]).
Proof.
  intros H Hs Hj. split; [| split].
  - intros Hu.
    apply (stdout_ok_extract_error net r (PDict d) (Exn KeyError "'user'") H Hs Hj).
    unfold extract. simpl. rewrite Hu. reflexivity.
  - intros u Hu Hi.
    apply (stdout_ok_extract_error net r (PDict d) (Exn KeyError "'id'") H Hs Hj).
    unfold extract. simpl. rewrite Hu. simpl. rewrite Hi. reflexivity.
  - intros u i Hu Hi Ht.
    apply (stdout_ok_extract_error net r (PDict d) (Exn KeyError "'jwt'") H Hs Hj).
    unfold extract. simpl. rewrite Hu. simpl. rewrite Hi, Ht. reflexivity.
Qed.

Lemma error_line_names_first_missing_key_witness :
  stdout (answering (Returns ok_without_token)) =
    [ "Step 1: Registering test user..."; "❌ Error: 'jwt'" ].
Proof.
  apply (proj2 (proj2 (error_line_names_first_missing_key
                         (answering (Returns ok_without_token)) ok_without_token
                         [ ("user", PDict [ ("id", PInt 7) ]) ]
                         eq_refl eq_refl eq_refl))
           [ ("id", PInt 7) ] (PInt 7));
    reflexivity.
Defined.

(** ** What the failure branch shows of the body *)

Lemma prefix_nil (s : string) : String.prefix EmptyString s = true.
Proof. destruct s; reflexivity. Qed.

Lemma prefix_app (x b : string) : String.prefix x (x ++ b) = true.
Proof.
  induction x as [| c x IH]; simpl.
  - apply prefix_nil.
  - destruct (ascii_dec c c) as [_ | Hne]; [exact IH | now destruct Hne].
Qed.

Lemma prefix_refl (x : string) : String.prefix x x = true.
Proof.
  induction x as [| c x IH]; simpl; [reflexivity |].
  destruct (ascii_dec c c) as [_ | Hne]; [exact IH | now destruct Hne].
Qed.

Lemma prefix_app_l (x a b : string) :
  String.prefix x a = true -> String.prefix x (a ++ b) = true.
Proof.
  revert a. induction x as [| c x IH]; intros a Hp.
  - apply prefix_nil.
  - destruct a as [| c' a]; simpl in Hp |- *; [discriminate Hp |].
    destruct (ascii_dec c c'); [apply IH; exact Hp | discriminate Hp].
Qed.

Lemma isinfix_unfold (x line : string) :
  isinfix x line =
    String.prefix x line ||
    match line with
    | EmptyString => false
    | String _ rest => isinfix x rest
    end.
Proof. destruct line; reflexivity. Qed.

Lemma isinfix_here (x line : string) :
  String.prefix x line = true -> isinfix x line = true.
Proof. intros Hp. rewrite isinfix_unfold, Hp. reflexivity. Qed.

Lemma isinfix_app_r (x a b : string) :
  isinfix x b = true -> isinfix x (a ++ b) = true.
Proof.
  intros Hb. induction a as [| c a IH].
  - exact Hb.
  - rewrite isinfix_unfold. change (String c a ++ b) with (String c (a ++ b)).
    cbv iota. rewrite IH. apply orb_true_r.
Qed.

Lemma isinfix_app_l (x a b : string) :
  isinfix x a = true -> isinfix x (a ++ b) = true.
Proof.
  induction a as [| c a IH]; intros Ha.
  - rewrite isinfix_unfold, orb_false_r in Ha.
    destruct x; [| discriminate Ha].
    apply isinfix_here, prefix_nil.
  - rewrite isinfix_unfold in Ha. rewrite isinfix_unfold.
    change (String c a ++ b) with (String c (a ++ b)).
    change (String c (a ++ b)) with (String c a ++ b) at 1.
    apply orb_true_iff in Ha. apply orb_true_iff.
    destruct Ha as [Hp | Hrest].
    + left. apply prefix_app_l. exact Hp.
    + right. apply IH. exact Hrest.
Qed.

Lemma isinfix_join (x sep p : string) (parts : list string) :
  In p parts -> isinfix x p = true -> isinfix x (join sep parts) = true.
Proof.
  intros Hin Hp. induction parts as [| p0 rest IH]; [destruct Hin |].
  destruct rest as [| p1 rest].
  - destruct Hin as [<- | []]. exact Hp.
  - change (join sep (p0 :: p1 :: rest)) with (p0 ++ sep ++ join sep (p1 :: rest)).
    destruct Hin as [<- | Hin].
    + apply isinfix_app_l. exact Hp.
    + apply isinfix_app_r, isinfix_app_r, IH. exact Hin.
Qed.

Lemma lookup_In (k : string) (d : list (string * value)) (v : value) :
  lookup k d = Some v -> In (k, v) d.
Proof.
  induction d as [| [k' v'] rest IH]; simpl; [discriminate |].
  destruct (String.eqb k k') eqn:Hk.
  - intros Hv. inversion Hv; subst. apply String.eqb_eq in Hk. subst. now left.
  - intros Hv. right. apply IH. exact Hv.
Qed.

(** [repr] of a dict shows the [repr] of each of its values. *)
Lemma repr_dict_shows_entry (k : string) (d : list (string * value)) (v : value) :
  lookup k d = Some v -> isinfix (repr v) (repr (PDict d)) = true.
Proof.
  intros Hv. apply lookup_In in Hv.
  change (repr (PDict d)) with
    ("{" ++ join ", " (map (fun kv => repr_str (fst kv) ++ ": " ++ repr (snd kv)) d) ++ "}").
  apply isinfix_app_r, isinfix_app_l.
  apply (isinfix_join _ _ (repr_str k ++ ": " ++ repr v)).
  - apply (in_map (fun kv => repr_str (fst kv) ++ ": " ++ repr (snd kv)) d (k, v) Hv).
  - apply isinfix_app_r, isinfix_app_r, isinfix_here, prefix_refl.
Qed.

(** X4: the failure branch prints the decoded body whole: when the status
    is not 200 and the body is an object, the third text printed contains
    the [repr] of every entry of the object, that of a jwt entry
    included. *)
Theorem failure_branch_shows_entries
    (net : network) (r : response) (d : list (string * value)) (k : string) (v : value) :
  net register_url register_data = Returns r ->
  status_code r <> 200 ->
  json_result r = inl (PDict d) ->
  lookup k d = Some v ->
  exists line,
    stdout net = [ "Step 1: Registering test user...";
                   "❌ Registration failed: " ++ str_int (status_code r);
                   line ] /\
    isinfix (repr v) line = true.
Proof.
  intros H Hs Hj Hv.
  exists (repr (PDict d)). split.
  - rewrite (stdout_failure net r H Hs), Hj. reflexivity.
  - apply (repr_dict_shows_entry k d v Hv).
Qed.

Lemma failure_branch_shows_entries_witness :
  exists line,
    stdout (answering (Returns (Response 201 (text created) (json_result created)))) =
      [ "Step 1: Registering test user..."; "❌ Registration failed: 201"; line ] /\
    isinfix "'eyJhbGciOi.eyJpZCI6N30.c2ln'" line = true.
Proof.
  apply (failure_branch_shows_entries
           (answering (Returns (Response 201 (text created) (json_result created))))
           (Response 201 (text created) (json_result created))
           [ ("jwt", PStr "eyJhbGciOi.eyJpZCI6N30.c2ln");
             ("user", PDict [ ("id", PInt 7); ("username", PStr "testsysadmin") ]) ]
           "jwt" (PStr "eyJhbGciOi.eyJpZCI6N30.c2ln")).
  - reflexivity.
  - discriminate.
  - reflexivity.
  - reflexivity.
Defined.
